(** * User Data Fetcher (script.js): a shallow embedding and its properties

    The script fetches a JSON array of users, renders one HTML card per
    user into a container, and falls back to three sample users when the
    request fails.  The embedding keeps the script's structure:

    - JavaScript values as far as [JSON.parse] can produce them ([value]);
    - exceptions as a sum type ([result]), with [try_catch];
    - the three page elements the script mutates and the console ([page]),
      threaded through a small state-and-exception monad ([M]);
    - the endpoint's behaviour for one request as data ([endpoint]).

    An [await] is a sequencing point: a trigger runs to completion before
    the next one starts. *)

From Stdlib Require Import String Ascii List.
From stdpp Require Import base strings list gmap pretty.

Open Scope string_scope.

Set Warnings "-register-all".

(** ** JavaScript values *)

(** A number, by the two observations the script can make of it: whether
    it is [0] or [-0] (truthiness, [=== 0]), and what [ToString] gives. *)
Record number := { num_is_zero : bool; num_text : string }.

Definition num_of_N (n : N) : number :=
  {| num_is_zero := bool_decide (n = 0%N); num_text := pretty n |}.

(** What [response.json()] can resolve to, and what the literal
    [SAMPLE_USERS] is built from.  An object is its list of own
    properties; a lookup takes the first entry for the key. *)
Inductive value :=
| JNull
| JBool (b : bool)
| JNum (n : number)
| JStr (s : string)
| JArr (elements : list value)
| JObj (props : list (string * value)).

(** A thrown value: an [Error] object with its [name] and [message]. *)
Record exn := { exn_name : string; message : string }.

Definition Error (msg : string) : exn := {| exn_name := "Error"; message := msg |}.
Definition TypeError (msg : string) : exn := {| exn_name := "TypeError"; message := msg |}.

(** Evaluating an expression either throws or yields a value. *)
Definition result (A : Type) : Type := exn + A.

Definition ok {A} (a : A) : result A := inr a.
Definition raise {A} (e : exn) : result A := inl e.

Definition rbind {A B} (r : result A) (k : A → result B) : result B :=
  match r with
  | inl e => inl e
  | inr a => k a
  end.

Notation "x <-? r ;; k" := (rbind r (fun x => k))
  (at level 100, r at next level, right associativity).

(** ** Property access and string conversion *)

Fixpoint own_property (props : list (string * value)) (key : string) : option value :=
  match props with
  | [] => None
  | (k, v) :: rest => if String.eqb k key then Some v else own_property rest key
  end.

(** [base.key] for [key] one of [name], [email], [address], [city], the
    only data fields the script reads.  [None] is [undefined].  No
    prototype defines any of these four names, so only an object's own
    properties can answer; reading a property of [undefined] or [null]
    throws. *)
Definition get_field (base : option value) (key : string) : result (option value) :=
  match base with
  | None =>
      raise (TypeError ("Cannot read properties of undefined (reading '" +:+ key +:+ "')"))
  | Some JNull =>
      raise (TypeError ("Cannot read properties of null (reading '" +:+ key +:+ "')"))
  | Some (JObj props) => ok (own_property props key)
  | Some _ => ok None
  end.

(** [Array.prototype.join]: conversions run left to right, the first one
    that throws ends the join. *)
Fixpoint join_results (pieces : list (result string)) : result (list string) :=
  match pieces with
  | [] => ok []
  | r :: rest => s <-? r ;; ss <-? join_results rest ;; ok (s :: ss)
  end.

(** [ToString], as a template literal applies it to a substitution.
    - an array goes through [join(",")], where [null] elements give the
      empty string;
    - an object gives ["[object Object]"] unless it has an own property
      [toString]: parsed data holds no function, so neither that property
      nor [valueOf] yields a primitive and the conversion throws. *)
Fixpoint to_string (v : value) : result string :=
  match v with
  | JNull => ok "null"
  | JBool true => ok "true"
  | JBool false => ok "false"
  | JNum n => ok (num_text n)
  | JStr s => ok s
  | JArr elements =>
      ss <-? join_results
               (map (fun x => match x with JNull => ok "" | _ => to_string x end) elements) ;;
      ok (String.concat "," ss)
  | JObj props =>
      match own_property props "toString" with
      | Some _ => raise (TypeError "Cannot convert object to primitive value")
      | None => ok "[object Object]"
      end
  end.

Definition substitute (v : option value) : result string :=
  match v with
  | None => ok "undefined"
  | Some x => to_string x
  end.

(** [!users] *)
Definition truthy (v : value) : bool :=
  match v with
  | JNull => false
  | JBool b => b
  | JNum n => negb (num_is_zero n)
  | JStr s => negb (String.eqb s "")
  | JArr _ | JObj _ => true
  end.

(** [users.length === 0], for a [users] that is not [null].  An array and
    a string have their length; an object answers with its own property
    [length]; a number or a boolean has none ([undefined === 0]). *)
Definition length_is_zero (v : value) : bool :=
  match v with
  | JArr elements => bool_decide (elements = [])
  | JStr s => String.eqb s ""
  | JObj props =>
      match own_property props "length" with
      | Some (JNum n) => num_is_zero n
      | _ => false
      end
  | _ => false
  end.

(** ** The page *)

(** What an element shows: [el.textContent = s] leaves a single text node,
    [el.innerHTML = html] leaves the parsed markup. *)
Inductive content :=
| Text (s : string)
| Markup (html : string).

Record element := { classList : gset string; children : content }.

Definition classList_add (token : string) (el : element) : element :=
  {| classList := {[token]} ∪ classList el; children := children el |}.

Definition classList_remove (token : string) (el : element) : element :=
  {| classList := classList el ∖ {[token]}; children := children el |}.

Definition set_textContent (s : string) (el : element) : element :=
  {| classList := classList el; children := Text s |}.

Definition set_innerHTML (html : string) (el : element) : element :=
  {| classList := classList el; children := Markup html |}.

(** The style sheet takes an element of class [hidden] off the page. *)
Definition visible (el : element) : Prop := "hidden" ∉ classList el.

#[global] Instance visible_dec el : Decision (visible el).
Proof. unfold visible. apply _. Defined.

(** The three elements the script writes to, and the console. *)
Record page := {
  loadingElement : element;
  errorMessageElement : element;
  usersContainer : element;
  console : list (string * exn)
}.

(** ** Statements: state passing with exceptions *)

Definition M (A : Type) : Type := page → result A * page.

Definition mret {A} (a : A) : M A := fun p => (ok a, p).

Definition throw {A} (e : exn) : M A := fun p => (raise e, p).

Definition mbind {A B} (m : M A) (k : A → M B) : M B :=
  fun p =>
    match m p with
    | (inl e, p') => (inl e, p')
    | (inr a, p') => k a p'
    end.

(** [try { body } catch (error) { handler }]: what [body] wrote before it
    threw stays written. *)
Definition try_catch {A} (body : M A) (handler : exn → M A) : M A :=
  fun p =>
    match body p with
    | (inl e, p') => handler e p'
    | (inr a, p') => (inr a, p')
    end.

Definition lift {A} (r : result A) : M A := fun p => (r, p).

Notation "x <- m ;; k" := (mbind m (fun x => k))
  (at level 100, m at next level, right associativity).
Notation "m ;; k" := (mbind m (fun _ => k))
  (at level 100, right associativity).

Definition on_loading (f : element → element) : M unit :=
  fun p => (ok tt, {| loadingElement := f (loadingElement p);
                      errorMessageElement := errorMessageElement p;
                      usersContainer := usersContainer p;
                      console := console p |}).

Definition on_errorMessage (f : element → element) : M unit :=
  fun p => (ok tt, {| loadingElement := loadingElement p;
                      errorMessageElement := f (errorMessageElement p);
                      usersContainer := usersContainer p;
                      console := console p |}).

Definition on_usersContainer (f : element → element) : M unit :=
  fun p => (ok tt, {| loadingElement := loadingElement p;
                      errorMessageElement := errorMessageElement p;
                      usersContainer := f (usersContainer p);
                      console := console p |}).

(** [console.error(label, error)] *)
Definition console_error (label : string) (error : exn) : M unit :=
  fun p => (ok tt, {| loadingElement := loadingElement p;
                      errorMessageElement := errorMessageElement p;
                      usersContainer := usersContainer p;
                      console := (console p ++ [(label, error)])%list |}).

(** ** The script *)

(** The object literal [{ id, name, email, address: { city } }]. *)
Definition user_object (id : N) (name email city : string) : value :=
  JObj [("id", JNum (num_of_N id)); ("name", JStr name); ("email", JStr email);
        ("address", JObj [("city", JStr city)])].

Definition SAMPLE_USERS : value :=
  JArr [user_object 1 "Leanne Graham" "Sincere@april.biz" "Gwenborough";
        user_object 2 "Ervin Howell" "Shanna@melissa.tv" "Wisokyburgh";
        user_object 3 "Clementine Bauch" "Nathan@yesenia.net" "McKenziehaven"].

Definition showLoading : M unit :=
  on_loading (classList_remove "hidden") ;;
  on_errorMessage (classList_add "hidden") ;;
  on_usersContainer (set_innerHTML "").

Definition hideLoading : M unit :=
  on_loading (classList_add "hidden").

Definition displayError (message : string) : M unit :=
  hideLoading ;;
  on_errorMessage (set_textContent message) ;;
  on_errorMessage (classList_remove "hidden").

Definition clearError : M unit :=
  on_errorMessage (classList_add "hidden") ;;
  on_errorMessage (set_textContent "").

(** The template literal of [createUserCard], cut at its three
    substitutions.  [dq] is the double quote, [nl] the line feed. *)
Definition dq : string := String (ascii_of_nat 34) "".
Definition nl : string := String (ascii_of_nat 10) "".

Definition card_open : string :=
  nl +:+
  "        <div class=" +:+ dq +:+ "user-card" +:+ dq +:+ ">" +:+ nl +:+
  "            <h3 class=" +:+ dq +:+ "user-name" +:+ dq +:+ ">".

Definition card_after_name : string :=
  "</h3>" +:+ nl +:+
  "            <ul class=" +:+ dq +:+ "user-details" +:+ dq +:+ ">" +:+ nl +:+
  "                <li>" +:+ nl +:+
  "                    <strong>Email:</strong> ".

Definition card_after_email : string :=
  nl +:+
  "                </li>" +:+ nl +:+
  "                <li>" +:+ nl +:+
  "                    <strong>City:</strong> ".

Definition card_close : string :=
  nl +:+
  "                </li>" +:+ nl +:+
  "            </ul>" +:+ nl +:+
  "        </div>" +:+ nl +:+
  "    ".

Definition card_template (name email city : string) : string :=
  card_open +:+ name +:+ card_after_name +:+ email +:+ card_after_email +:+ city +:+ card_close.

(** Substitutions are evaluated and converted left to right. *)
Definition createUserCard (user : value) : result string :=
  name <-? get_field (Some user) "name" ;;
  name <-? substitute name ;;
  email <-? get_field (Some user) "email" ;;
  email <-? substitute email ;;
  address <-? get_field (Some user) "address" ;;
  city <-? get_field address "city" ;;
  city <-? substitute city ;;
  ok (card_template name email city).

(** [users.map(f)]: only an array has [map]; the callback runs on the
    elements in order. *)
Definition array_map {A} (users : value) (f : value → result A) : result (list A) :=
  match users with
  | JArr elements =>
      (fix go (l : list value) : result (list A) :=
         match l with
         | [] => ok []
         | x :: rest => y <-? f x ;; ys <-? go rest ;; ok (y :: ys)
         end) elements
  | _ => raise (TypeError "users.map is not a function")
  end.

(** [users.map(user => createUserCard(user)).join('')] *)
Definition usersHTML (users : value) : result string :=
  cards <-? array_map users createUserCard ;;
  ok (String.concat "" cards).

Definition displayUsers (users : value) : M unit :=
  hideLoading ;;
  clearError ;;
  if negb (truthy users) || length_is_zero users then
    displayError "No users found."
  else
    html <- lift (usersHTML users) ;;
    on_usersContainer (set_innerHTML html).

(** *** The endpoint *)

(** What [response.json()] settles to. *)
Inductive body :=
| Malformed (error : exn)
| Parsed (data : value).

Record response := { status : N; payload : body }.

(** [response.ok]: the status is in the range 200 to 299. *)
Definition response_ok (r : response) : bool :=
  bool_decide (200 ≤ status r ∧ status r ≤ 299)%N.

(** What [fetch(API_URL)] settles to for one request. *)
Inductive endpoint :=
| Unreachable (error : exn)
| Responds (r : response).

Definition fetch (server : endpoint) : M response :=
  match server with
  | Unreachable error => throw error
  | Responds r => mret r
  end.

Definition json (r : response) : M value :=
  match payload r with
  | Malformed error => throw error
  | Parsed data => mret data
  end.

Definition fetchUsers_try (server : endpoint) : M value :=
  showLoading ;;
  response <- fetch server ;;
  if negb (response_ok response) then
    throw (Error ("HTTP error! Status: " +:+ pretty (status response)))
  else
    users <- json response ;;
    mret users.

Definition fetchUsers (server : endpoint) : M value :=
  try_catch (fetchUsers_try server)
    (fun error =>
       console_error "Error fetching users:" error ;;
       displayError ("Failed to fetch users: " +:+ message error +:+ ". Showing sample data.") ;;
       mret SAMPLE_USERS).

Definition handleFetchUsers_try (server : endpoint) : M unit :=
  users <- fetchUsers server ;;
  displayUsers users.

Definition handleFetchUsers (server : endpoint) : M unit :=
  try_catch (handleFetchUsers_try server)
    (fun error =>
       console_error "Unexpected error:" error ;;
       displayError "An unexpected error occurred. Please try again.").

(** ** Vocabulary of the properties *)

(** [needle] occurs in [hay], character for character. *)
Definition Contains (needle hay : string) : Prop :=
  ∃ before after, hay = before +:+ needle +:+ after.

(** [base.key] when it is an own property holding a string. *)
Definition string_field (base : value) (key : string) : option string :=
  match base with
  | JObj props =>
      match own_property props key with
      | Some (JStr s) => Some s
      | _ => None
      end
  | _ => None
  end.

(** The name, email and city of a user record
    [{ name: string, email: string, address: { city: string }, ... }];
    [None] for any other value. *)
Definition user_fields (u : value) : option (string * string * string) :=
  match u with
  | JObj props =>
      name ← string_field u "name";
      email ← string_field u "email";
      address ← own_property props "address";
      city ← string_field address "city";
      Some (name, email, city)
  | _ => None
  end.

(** The ways a request fails, each with the error [fetchUsers] catches:
    [fetch] rejects, the status is outside 200..299, or the body does not
    parse. *)
Inductive fetch_failure : endpoint → exn → Prop :=
| network_failure error :
    fetch_failure (Unreachable error) error
| http_status_failure r :
    ¬ (200 ≤ status r ∧ status r ≤ 299)%N →
    fetch_failure (Responds r) (Error ("HTTP error! Status: " +:+ pretty (status r)))
| parse_failure r error :
    (200 ≤ status r ∧ status r ≤ 299)%N →
    payload r = Malformed error →
    fetch_failure (Responds r) error.

(** What the user sees: the three elements, without the console. *)
Definition rendered (p : page) : element * element * element :=
  (loadingElement p, errorMessageElement p, usersContainer p).

(** The page a statement leaves behind, returning or throwing. *)
Definition after {A} (m : M A) (p : page) : page := snd (m p).

Definition fetch_error_banner (error : exn) : string :=
  "Failed to fetch users: " +:+ message error +:+ ". Showing sample data.".

(** A page as the document could load it: the indicator and the banner
    hidden, nothing rendered. *)
Definition blank_page : page :=
  {| loadingElement := {| classList := {["loading"; "hidden"]}; children := Text "Loading users..." |};
     errorMessageElement := {| classList := {["error-message"; "hidden"]}; children := Text "" |};
     usersContainer := {| classList := {["users-container"]}; children := Markup "" |};
     console := [] |}.

(** The markup of the three sample cards. *)
Definition SAMPLE_CARDS : string :=
  card_template "Leanne Graham" "Sincere@april.biz" "Gwenborough" +:+
  card_template "Ervin Howell" "Shanna@melissa.tv" "Wisokyburgh" +:+
  card_template "Clementine Bauch" "Nathan@yesenia.net" "McKenziehaven".

(** What a finished trigger leaves on the page: a banner and an empty
    container, or cards and no banner. *)
Inductive view :=
| Banner (text : string)
| Cards (html : string).

Definition paint (v : view) (r : element * element * element) : element * element * element :=
  let '(loading, banner, container) := r in
  match v with
  | Banner text =>
      (classList_add "hidden" loading,
       classList_remove "hidden" (set_textContent text banner),
       set_innerHTML "" container)
  | Cards html =>
      (classList_add "hidden" loading,
       classList_add "hidden" (set_textContent "" banner),
       set_innerHTML html container)
  end.

(** Whether [user.address] is something [.city] can be read from: an own
    property that is not [null]. *)
Definition has_address (u : value) : bool :=
  match u with
  | JObj props =>
      match own_property props "address" with
      | Some JNull | None => false
      | Some _ => true
      end
  | _ => false
  end.

(** [fetchUsersBtn.addEventListener('click', handleFetchUsers)]: every
    click runs the handler.  [clicks servers p] is the page after one
    click per entry of [servers], each run finishing before the next click;
    the entry says how the endpoint behaves for that click. *)
Definition clicks (servers : list endpoint) (p : page) : page :=
  foldl (λ q server, after (handleFetchUsers server) q) p servers.

(** A page that shows two cards from an earlier run. *)
Definition page_with_cards : page :=
  {| loadingElement := {| classList := {["loading"; "hidden"]}; children := Text "Loading users..." |};
     errorMessageElement := {| classList := {["error-message"; "hidden"]}; children := Text "" |};
     usersContainer :=
       {| classList := {["users-container"]};
          children := Markup (card_template "A" "a@x.com" "C" +:+
                              card_template "B" "b@x.com" "D") |};
     console := [] |}.

Arguments classList_add : simpl never.
Arguments classList_remove : simpl never.
Arguments get_field : simpl never.

(** ** Basic facts *)

Section Statements.
Context {A B : Type}.
Implicit Types (m : M A) (k : A → M B) (handler : exn → M A).

Lemma mbind_ok m k p a p' : m p = (ok a, p') → mbind m k p = k a p'.
Proof. unfold mbind. by intros ->. Qed.

Lemma mbind_raise m k p e p' : m p = (raise e, p') → mbind m k p = (raise e, p').
Proof. unfold mbind. by intros ->. Qed.

Lemma try_catch_ok m handler p a p' :
  m p = (ok a, p') → try_catch m handler p = (ok a, p').
Proof. unfold try_catch. by intros ->. Qed.

Lemma try_catch_raise m handler p e p' :
  m p = (raise e, p') → try_catch m handler p = handler e p'.
Proof. unfold try_catch. by intros ->. Qed.
End Statements.

Lemma Contains_middle (before needle after : string) :
  Contains needle (before +:+ needle +:+ after).
Proof. by exists before, after. Qed.

Lemma append_assoc (a b c : string) : (a +:+ b) +:+ c = a +:+ (b +:+ c).
Proof.
  induction a as [|x a IH]; [reflexivity |].
  change (String x ((a +:+ b) +:+ c) = String x (a +:+ b +:+ c)).
  by rewrite IH.
Qed.

Lemma response_ok_true r :
  response_ok r = true ↔ (200 ≤ status r ∧ status r ≤ 299)%N.
Proof. unfold response_ok. apply bool_decide_eq_true. Qed.

Lemma response_ok_false r :
  response_ok r = false ↔ ¬ (200 ≤ status r ∧ status r ≤ 299)%N.
Proof. unfold response_ok. apply bool_decide_eq_false. Qed.

(** *** Elements *)

Lemma hidden_after_add el : ¬ visible (classList_add "hidden" el).
Proof. unfold visible, classList_add; simpl. set_solver. Qed.

Lemma visible_after_remove el : visible (classList_remove "hidden" el).
Proof.
  unfold visible, classList_remove; simpl.
  intros [_ Hn]%elem_of_difference. apply Hn. by apply elem_of_singleton.
Qed.

(** *** [fetchUsers] *)

Lemma fetchUsers_try_throws server error p :
  fetch_failure server error →
  fetchUsers_try server p = (raise error, after showLoading p).
Proof.
  intros [e | r Hr | r e Hr He].
  - reflexivity.
  - apply response_ok_false in Hr.
    unfold fetchUsers_try, mbind; simpl. by rewrite Hr.
  - apply response_ok_true in Hr.
    unfold fetchUsers_try, mbind, json; simpl. by rewrite Hr, He.
Qed.

Lemma fetchUsers_try_returns r data p :
  (200 ≤ status r ∧ status r ≤ 299)%N →
  payload r = Parsed data →
  fetchUsers_try (Responds r) p = (ok data, after showLoading p).
Proof.
  intros Hr Hd. apply response_ok_true in Hr.
  unfold fetchUsers_try, mbind, json; simpl. by rewrite Hr, Hd.
Qed.

(** Every request either fails in one of the three ways or delivers
    parsed data. *)
Lemma endpoint_cases server :
  (∃ error, fetch_failure server error) ∨
  (∃ r data, server = Responds r ∧ (200 ≤ status r ∧ status r ≤ 299)%N ∧
             payload r = Parsed data).
Proof.
  destruct server as [e | r].
  - left. exists e. constructor.
  - destruct (decide (200 ≤ status r ∧ status r ≤ 299)%N) as [Hr | Hr].
    + destruct (payload r) as [e | data] eqn:Hp.
      * left. exists e. by apply parse_failure.
      * right. by exists r, data.
    + left. eexists. by apply http_status_failure.
Qed.

(** The [try] block of [fetchUsers] throws exactly on these failures. *)
Lemma fetchUsers_try_throws_iff server error p :
  (∃ thrown, fetchUsers_try server p = (raise error, thrown)) ↔
  fetch_failure server error.
Proof.
  split.
  - intros [thrown Hthrow].
    destruct (endpoint_cases server) as [[e He] | (r & data & -> & Hr & Hd)].
    + rewrite (fetchUsers_try_throws _ _ _ He) in Hthrow.
      by injection Hthrow as <- _.
    + by rewrite (fetchUsers_try_returns _ _ _ Hr Hd) in Hthrow.
  - intros Hf. eexists. by apply fetchUsers_try_throws.
Qed.

Lemma fetchUsers_failure server error p :
  fetch_failure server error →
  fetchUsers server p =
    (ok SAMPLE_USERS,
     after (displayError (fetch_error_banner error))
       (after (console_error "Error fetching users:" error) (after showLoading p))).
Proof.
  intros Hf. unfold fetchUsers, try_catch.
  by rewrite (fetchUsers_try_throws _ _ _ Hf).
Qed.

Lemma fetchUsers_success r data p :
  (200 ≤ status r ∧ status r ≤ 299)%N →
  payload r = Parsed data →
  fetchUsers (Responds r) p = (ok data, after showLoading p).
Proof.
  intros Hr Hd. unfold fetchUsers, try_catch.
  by rewrite (fetchUsers_try_returns _ _ _ Hr Hd).
Qed.

(** [fetchUsers] itself never throws. *)
Lemma fetchUsers_returns server p :
  ∃ users, fetchUsers server p = (ok users, after (fetchUsers server) p).
Proof.
  unfold after.
  destruct (endpoint_cases server) as [[e He] | (r & data & -> & Hr & Hd)].
  - exists SAMPLE_USERS. by rewrite (fetchUsers_failure _ _ _ He).
  - exists data. by rewrite (fetchUsers_success _ _ _ Hr Hd).
Qed.

(** *** [createUserCard] *)

Lemma string_field_get base key s :
  string_field base key = Some s →
  get_field (Some base) key = ok (Some (JStr s)).
Proof.
  destruct base as [| | | |?|props]; try done. unfold get_field; simpl.
  destruct (own_property props key) as [[]|]; naive_solver.
Qed.

Lemma createUserCard_user u name email city :
  user_fields u = Some (name, email, city) →
  createUserCard u = ok (card_template name email city).
Proof.
  destruct u as [| | | |?|props]; try done.
  unfold user_fields, createUserCard.
  destruct (string_field (JObj props) "name") as [n|] eqn:Hn; [|done].
  destruct (string_field (JObj props) "email") as [e|] eqn:He; [|done].
  rewrite (string_field_get _ _ _ Hn), (string_field_get _ _ _ He).
  simpl. destruct (own_property props "address") as [a|]; [|done]. simpl.
  destruct (string_field a "city") as [c|] eqn:Hc; [|done].
  rewrite (string_field_get _ _ _ Hc). simpl. by intros [= -> -> ->].
Qed.

Lemma card_template_contains name email city :
  Contains name (card_template name email city) ∧
  Contains email (card_template name email city) ∧
  Contains city (card_template name email city).
Proof.
  unfold card_template. split_and!.
  - apply Contains_middle.
  - exists (card_open +:+ name +:+ card_after_name), (card_after_email +:+ city +:+ card_close).
    by rewrite !append_assoc.
  - exists (card_open +:+ name +:+ card_after_name +:+ email +:+ card_after_email), card_close.
    by rewrite !append_assoc.
Qed.

(** *** [displayUsers] *)

Lemma displayUsers_none users p :
  negb (truthy users) || length_is_zero users = true →
  displayUsers users p =
    (ok tt, after (displayError "No users found.") (after clearError (after hideLoading p))).
Proof. intros He. unfold displayUsers, mbind; simpl. by rewrite He. Qed.

Lemma displayUsers_some users html p :
  negb (truthy users) || length_is_zero users = false →
  usersHTML users = ok html →
  displayUsers users p =
    (ok tt, after (on_usersContainer (set_innerHTML html))
              (after clearError (after hideLoading p))).
Proof. intros He Hh. unfold displayUsers, mbind, lift; simpl. by rewrite He, Hh. Qed.

Lemma displayUsers_throws users error p :
  negb (truthy users) || length_is_zero users = false →
  usersHTML users = raise error →
  displayUsers users p = (raise error, after clearError (after hideLoading p)).
Proof. intros He Hh. unfold displayUsers, mbind, lift; simpl. by rewrite He, Hh. Qed.

(** The three ways [displayUsers] can go. *)
Lemma displayUsers_cases users p :
  displayUsers users p =
    (ok tt, after (displayError "No users found.") (after clearError (after hideLoading p)))
  ∨ (∃ html,
       usersHTML users = ok html ∧
       displayUsers users p =
         (ok tt, after (on_usersContainer (set_innerHTML html))
                   (after clearError (after hideLoading p))))
  ∨ (∃ error,
       displayUsers users p = (raise error, after clearError (after hideLoading p))).
Proof.
  destruct (negb (truthy users) || length_is_zero users) eqn:He.
  - left. by apply displayUsers_none.
  - right. destruct (usersHTML users) as [error | html] eqn:Hh.
    + right. exists error. by apply displayUsers_throws.
    + left. exists html. split; [done |]. by apply displayUsers_some.
Qed.

Lemma array_map_users (us : list value) :
  Forall (λ u, is_Some (user_fields u)) us →
  ∃ cards,
    array_map (JArr us) createUserCard = ok cards ∧
    Forall2 (λ u card, createUserCard u = ok card) us cards.
Proof.
  induction 1 as [| u us [[[name email] city] Hu] _ (cards & Hcards & IH)].
  - by exists [].
  - exists (card_template name email city :: cards). split.
    + simpl in *. rewrite (createUserCard_user _ _ _ _ Hu). simpl.
      by rewrite Hcards.
    + constructor; [by apply createUserCard_user | done].
Qed.

Lemma usersHTML_SAMPLE_USERS : usersHTML SAMPLE_USERS = ok SAMPLE_CARDS.
Proof. reflexivity. Qed.

(** *** Elements up to their class set *)

Lemma element_eq (a b : element) :
  children a = children b →
  (∀ token, token ∈ classList a ↔ token ∈ classList b) →
  a = b.
Proof.
  destruct a as [ca ka], b as [cb kb]; simpl. intros -> Hc.
  f_equal. by apply set_eq.
Qed.

Ltac triple_eq := apply (f_equal2 pair); [apply (f_equal2 pair) |].

Ltac same_element :=
  apply element_eq;
  [ reflexivity
  | intros token; unfold classList_add, classList_remove; simpl;
    repeat (rewrite elem_of_union || rewrite elem_of_difference
            || rewrite elem_of_singleton);
    destruct (decide (token = "hidden")) as [-> | ?]; intuition congruence ].

Lemma paint_paint v r : paint v (paint v r) = paint v r.
Proof.
  destruct r as [[loading banner] container], v as [text | html]; simpl;
    triple_eq; same_element.
Qed.

Lemma paint_loading v r : (paint v r).1.1 = classList_add "hidden" r.1.1.
Proof. by destruct r as [[??]?], v. Qed.

(** *** One trigger *)

(** The four runs of the handler, with the page each one leaves. *)
Lemma handleFetchUsers_failure server error p :
  fetch_failure server error →
  handleFetchUsers server p =
    (ok tt,
     after (on_usersContainer (set_innerHTML SAMPLE_CARDS))
       (after clearError
          (after hideLoading
             (after (displayError (fetch_error_banner error))
                (after (console_error "Error fetching users:" error)
                   (after showLoading p)))))).
Proof.
  intros Hf. apply try_catch_ok. unfold handleFetchUsers_try.
  erewrite mbind_ok by by apply fetchUsers_failure.
  by apply displayUsers_some, usersHTML_SAMPLE_USERS.
Qed.

Lemma handleFetchUsers_none r data p :
  (200 ≤ status r ∧ status r ≤ 299)%N →
  payload r = Parsed data →
  negb (truthy data) || length_is_zero data = true →
  handleFetchUsers (Responds r) p =
    (ok tt,
     after (displayError "No users found.")
       (after clearError (after hideLoading (after showLoading p)))).
Proof.
  intros Hr Hd He. apply try_catch_ok. unfold handleFetchUsers_try.
  erewrite mbind_ok by by apply fetchUsers_success.
  by apply displayUsers_none.
Qed.

Lemma handleFetchUsers_some r data html p :
  (200 ≤ status r ∧ status r ≤ 299)%N →
  payload r = Parsed data →
  negb (truthy data) || length_is_zero data = false →
  usersHTML data = ok html →
  handleFetchUsers (Responds r) p =
    (ok tt,
     after (on_usersContainer (set_innerHTML html))
       (after clearError (after hideLoading (after showLoading p)))).
Proof.
  intros Hr Hd He Hh. apply try_catch_ok. unfold handleFetchUsers_try.
  erewrite mbind_ok by by apply fetchUsers_success.
  by apply displayUsers_some.
Qed.

Lemma handleFetchUsers_try_throws r data error p :
  (200 ≤ status r ∧ status r ≤ 299)%N →
  payload r = Parsed data →
  negb (truthy data) || length_is_zero data = false →
  usersHTML data = raise error →
  handleFetchUsers_try (Responds r) p =
    (raise error, after clearError (after hideLoading (after showLoading p))).
Proof.
  intros Hr Hd He Hh. unfold handleFetchUsers_try.
  erewrite mbind_ok by by apply fetchUsers_success.
  by apply displayUsers_throws.
Qed.

Lemma handleFetchUsers_throws r data error p :
  (200 ≤ status r ∧ status r ≤ 299)%N →
  payload r = Parsed data →
  negb (truthy data) || length_is_zero data = false →
  usersHTML data = raise error →
  handleFetchUsers (Responds r) p =
    (ok tt,
     after (displayError "An unexpected error occurred. Please try again.")
       (after (console_error "Unexpected error:" error)
          (after clearError (after hideLoading (after showLoading p))))).
Proof.
  intros Hr Hd He Hh. unfold handleFetchUsers.
  erewrite try_catch_raise by by eapply handleFetchUsers_try_throws.
  reflexivity.
Qed.

(** Whatever the endpoint does, the handler returns, and what it leaves on
    the page is one [view] that the endpoint alone decides. *)
Lemma handleFetchUsers_paints server :
  ∃ v, ∀ p,
    handleFetchUsers server p = (ok tt, after (handleFetchUsers server) p) ∧
    rendered (after (handleFetchUsers server) p) = paint v (rendered p).
Proof.
  destruct (endpoint_cases server) as [[error Hf] | (r & data & -> & Hr & Hd)].
  - exists (Cards SAMPLE_CARDS). intros p.
    unfold after at 1 2. rewrite (handleFetchUsers_failure _ _ _ Hf).
    split; [done |]. unfold rendered, after; simpl. triple_eq; same_element.
  - destruct (negb (truthy data) || length_is_zero data) eqn:He;
      [| destruct (usersHTML data) as [error | html] eqn:Hh].
    + exists (Banner "No users found."). intros p.
      unfold after at 1 2. rewrite (handleFetchUsers_none _ _ _ Hr Hd He).
      split; [done |]. unfold rendered, after; simpl. triple_eq; same_element.
    + exists (Banner "An unexpected error occurred. Please try again."). intros p.
      unfold after at 1 2. rewrite (handleFetchUsers_throws _ _ _ _ Hr Hd He Hh).
      split; [done |]. unfold rendered, after; simpl. triple_eq; same_element.
    + exists (Cards html). intros p.
      unfold after at 1 2. rewrite (handleFetchUsers_some _ _ _ _ Hr Hd He Hh).
      split; [done |]. unfold rendered, after; simpl. triple_eq; same_element.
Qed.

(** The endpoint returns one user: one card, no banner. *)
Example trigger_with_one_user :
  let server :=
    Responds {| status := 200;
                payload := Parsed (JArr [user_object 1 "A" "a@x.com" "C"]) |} in
  let final := after (handleFetchUsers server) blank_page in
  children (usersContainer final) = Markup (card_template "A" "a@x.com" "C") ∧
  ¬ visible (errorMessageElement final) ∧
  ¬ visible (loadingElement final).
Proof. split_and!; [reflexivity | apply hidden_after_add ..]. Qed.

(** ** Properties of the script *)

(** C1. Whenever the request fails (the network call rejects, the status
    is not a 2xx one, or the body does not parse), [fetchUsers] returns
    normally, and what it returns is the fixed fallback of three users:
    1 Leanne Graham, 2 Ervin Howell, 3 Clementine Bauch. *)
Theorem fetchUsers_falls_back_to_SAMPLE_USERS server error p :
  fetch_failure server error →
  (fetchUsers server p).1 =
    ok (JArr [user_object 1 "Leanne Graham" "Sincere@april.biz" "Gwenborough";
              user_object 2 "Ervin Howell" "Shanna@melissa.tv" "Wisokyburgh";
              user_object 3 "Clementine Bauch" "Nathan@yesenia.net" "McKenziehaven"]).
Proof. intros Hf. by rewrite (fetchUsers_failure _ _ _ Hf). Qed.

Lemma fetchUsers_falls_back_on_unparsable_body :
  fetch_failure
    (Responds {| status := 200;
                 payload := Malformed {| exn_name := "SyntaxError";
                                         message := "Unexpected token < in JSON" |} |})
    {| exn_name := "SyntaxError"; message := "Unexpected token < in JSON" |} ∧
  (fetchUsers
     (Responds {| status := 200;
                  payload := Malformed {| exn_name := "SyntaxError";
                                          message := "Unexpected token < in JSON" |} |})
     blank_page).1 =
    ok (JArr [user_object 1 "Leanne Graham" "Sincere@april.biz" "Gwenborough";
              user_object 2 "Ervin Howell" "Shanna@melissa.tv" "Wisokyburgh";
              user_object 3 "Clementine Bauch" "Nathan@yesenia.net" "McKenziehaven"]).
Proof.
  assert (fetch_failure
            (Responds {| status := 200;
                         payload := Malformed {| exn_name := "SyntaxError";
                                                 message := "Unexpected token < in JSON" |} |})
            {| exn_name := "SyntaxError"; message := "Unexpected token < in JSON" |}) as Hf.
  { apply parse_failure; simpl; [lia | reflexivity]. }
  split; [exact Hf |].
  exact (fetchUsers_falls_back_to_SAMPLE_USERS _ _ blank_page Hf).
Defined.

(** C2, on the code as it is.  When the endpoint answers with status 500,
    [fetchUsers] puts up the banner naming the status, but the
    [displayUsers] call that follows clears it: the trigger ends with the
    three sample cards and a hidden, empty banner. *)
Theorem http_500_ends_without_banner body p :
  let server := Responds {| status := 500; payload := body |} in
  let fetched := after (fetchUsers server) p in
  let final := after (handleFetchUsers server) p in
  (visible (errorMessageElement fetched) ∧
   children (errorMessageElement fetched) =
     Text "Failed to fetch users: HTTP error! Status: 500. Showing sample data.") ∧
  handleFetchUsers server p = (ok tt, final) ∧
  children (usersContainer final) = Markup SAMPLE_CARDS ∧
  ¬ visible (errorMessageElement final) ∧
  children (errorMessageElement final) = Text "".
Proof.
  intros server fetched final.
  assert (fetch_failure server (Error "HTTP error! Status: 500")) as Hf.
  { apply (http_status_failure {| status := 500; payload := body |}). simpl. lia. }
  subst fetched final. unfold after.
  rewrite (fetchUsers_failure _ _ _ Hf), (handleFetchUsers_failure _ _ _ Hf).
  split_and!; try done.
  - apply visible_after_remove.
  - apply hidden_after_add.
Qed.

(** C3. Rendering a non-empty sequence of user records returns normally
    and fills the container with one card per record, in the order of the
    sequence; the card of a record is what [createUserCard] makes of it,
    and the record's name, email and city occur in it character for
    character. *)
Theorem displayUsers_one_card_per_user (us : list value) p :
  us ≠ [] →
  Forall (λ u, is_Some (user_fields u)) us →
  ∃ cards,
    displayUsers (JArr us) p = (ok tt, after (displayUsers (JArr us)) p) ∧
    children (usersContainer (after (displayUsers (JArr us)) p)) =
      Markup (String.concat "" cards) ∧
    Forall2 (λ u card,
               createUserCard u = ok card ∧
               ∃ name email city,
                 user_fields u = Some (name, email, city) ∧
                 Contains name card ∧ Contains email card ∧ Contains city card)
            us cards.
Proof.
  intros Hne Hus.
  destruct (array_map_users us Hus) as (cards & Hmap & Hcards).
  exists cards.
  assert (negb (truthy (JArr us)) || length_is_zero (JArr us) = false) as He.
  { simpl. by apply bool_decide_eq_false. }
  assert (usersHTML (JArr us) = ok (String.concat "" cards)) as Hh.
  { unfold usersHTML. by rewrite Hmap. }
  unfold after. rewrite (displayUsers_some _ _ _ He Hh). split_and!; try done.
  clear Hmap Hh He Hne. induction Hcards as [| u card us cards Hcard _ IH].
  - constructor.
  - apply Forall_cons in Hus as [[[[name email] city] Hu] Hus].
    constructor; [| by apply IH].
    split; [done |]. exists name, email, city. split; [done |].
    rewrite (createUserCard_user _ _ _ _ Hu) in Hcard.
    injection Hcard as <-. apply card_template_contains.
Qed.

Lemma displayUsers_one_card_for_A :
  ∃ cards,
    displayUsers (JArr [user_object 1 "A" "a@x.com" "C"]) blank_page =
      (ok tt, after (displayUsers (JArr [user_object 1 "A" "a@x.com" "C"])) blank_page) ∧
    children (usersContainer
                (after (displayUsers (JArr [user_object 1 "A" "a@x.com" "C"])) blank_page)) =
      Markup (String.concat "" cards) ∧
    Forall2 (λ u card,
               createUserCard u = ok card ∧
               ∃ name email city,
                 user_fields u = Some (name, email, city) ∧
                 Contains name card ∧ Contains email card ∧ Contains city card)
            [user_object 1 "A" "a@x.com" "C"] cards.
Proof.
  apply (displayUsers_one_card_per_user [user_object 1 "A" "a@x.com" "C"] blank_page).
  - discriminate.
  - repeat constructor. by exists ("A", "a@x.com", "C").
Defined.

(** C4. When the request succeeds with an empty array, the trigger ends
    with nothing in the container and the banner visible, reading
    "No users found."; the loading indicator is hidden. *)
Theorem empty_array_shows_no_users_found r p :
  (200 ≤ status r ∧ status r ≤ 299)%N →
  payload r = Parsed (JArr []) →
  let final := after (handleFetchUsers (Responds r)) p in
  handleFetchUsers (Responds r) p = (ok tt, final) ∧
  children (usersContainer final) = Markup "" ∧
  visible (errorMessageElement final) ∧
  children (errorMessageElement final) = Text "No users found." ∧
  ¬ visible (loadingElement final).
Proof.
  intros Hr Hd final. subst final. unfold after.
  rewrite (handleFetchUsers_none _ _ _ Hr Hd eq_refl).
  split_and!; try done.
  - apply visible_after_remove.
  - apply hidden_after_add.
Qed.

Lemma empty_array_shows_no_users_found_200 :
  let r := {| status := 200; payload := Parsed (JArr []) |} in
  let final := after (handleFetchUsers (Responds r)) blank_page in
  handleFetchUsers (Responds r) blank_page = (ok tt, final) ∧
  children (usersContainer final) = Markup "" ∧
  visible (errorMessageElement final) ∧
  children (errorMessageElement final) = Text "No users found." ∧
  ¬ visible (loadingElement final).
Proof.
  apply (empty_array_shows_no_users_found
           {| status := 200; payload := Parsed (JArr []) |} blank_page).
  - simpl. lia.
  - reflexivity.
Defined.

(** C5. A response whose status is outside 200..299 is a failure,
    whatever its body holds: [fetchUsers] returns the fallback users and
    never the body, and the failure it reports, on the banner and on the
    console, carries the status code. *)
Theorem non_2xx_status_is_a_failure (code : N) body p :
  ¬ (200 ≤ code ∧ code ≤ 299)%N →
  let server := Responds {| status := code; payload := body |} in
  let fetched := after (fetchUsers server) p in
  fetchUsers server p = (ok SAMPLE_USERS, fetched) ∧
  visible (errorMessageElement fetched) ∧
  children (errorMessageElement fetched) =
    Text ("Failed to fetch users: HTTP error! Status: " +:+ pretty code +:+
          ". Showing sample data.") ∧
  Contains (pretty code)
    ("Failed to fetch users: HTTP error! Status: " +:+ pretty code +:+
     ". Showing sample data.") ∧
  console fetched =
    (console p ++
       [("Error fetching users:", Error ("HTTP error! Status: " +:+ pretty code))])%list.
Proof.
  intros Hcode server fetched.
  assert (fetch_failure server (Error ("HTTP error! Status: " +:+ pretty code))) as Hf.
  { by apply (http_status_failure {| status := code; payload := body |}). }
  subst fetched. unfold after. rewrite (fetchUsers_failure _ _ _ Hf).
  split_and!; try done.
  - apply visible_after_remove.
  - exists "Failed to fetch users: HTTP error! Status: ", ". Showing sample data.".
    reflexivity.
Qed.

Lemma status_404_is_a_failure :
  let server :=
    Responds {| status := 404; payload := Parsed (JArr [user_object 9 "Z" "z@x.com" "Q"]) |} in
  let fetched := after (fetchUsers server) blank_page in
  fetchUsers server blank_page = (ok SAMPLE_USERS, fetched) ∧
  visible (errorMessageElement fetched) ∧
  children (errorMessageElement fetched) =
    Text ("Failed to fetch users: HTTP error! Status: " +:+ pretty 404%N +:+
          ". Showing sample data.") ∧
  Contains (pretty 404%N)
    ("Failed to fetch users: HTTP error! Status: " +:+ pretty 404%N +:+
     ". Showing sample data.") ∧
  console fetched =
    (console blank_page ++
       [("Error fetching users:", Error ("HTTP error! Status: " +:+ pretty 404%N))])%list.
Proof.
  apply (non_2xx_status_is_a_failure 404
           (Parsed (JArr [user_object 9 "Z" "z@x.com" "Q"])) blank_page).
  lia.
Defined.

(** C6. The handler always returns: nothing it catches is thrown again.
    When its [try] block throws, which rendering can do on data of the
    wrong shape, the error goes to the console and the banner shows the
    generic message. *)
Theorem handleFetchUsers_never_throws server p :
  let final := after (handleFetchUsers server) p in
  handleFetchUsers server p = (ok tt, final) ∧
  ∀ error thrown,
    handleFetchUsers_try server p = (raise error, thrown) →
    console final = (console thrown ++ [("Unexpected error:", error)])%list ∧
    visible (errorMessageElement final) ∧
    children (errorMessageElement final) =
      Text "An unexpected error occurred. Please try again.".
Proof.
  intros final. subst final.
  destruct (handleFetchUsers_paints server) as [v Hv].
  split; [apply Hv |].
  intros error thrown Hthrow. unfold after, handleFetchUsers.
  rewrite (try_catch_raise _ _ _ _ _ Hthrow). split_and!; try done.
  apply visible_after_remove.
Qed.

Lemma handleFetchUsers_survives_null_user :
  let server := Responds {| status := 200; payload := Parsed (JArr [JNull]) |} in
  let final := after (handleFetchUsers server) blank_page in
  ∃ error thrown,
    handleFetchUsers_try server blank_page = (raise error, thrown) ∧
    handleFetchUsers server blank_page = (ok tt, final) ∧
    console final = (console thrown ++ [("Unexpected error:", error)])%list ∧
    visible (errorMessageElement final) ∧
    children (errorMessageElement final) =
      Text "An unexpected error occurred. Please try again.".
Proof.
  intros server final.
  destruct (handleFetchUsers_never_throws server blank_page) as [Hret Hcatch].
  eexists _, _. split; [reflexivity |]. split; [exact Hret |].
  apply Hcatch. reflexivity.
Defined.

(** C7. A second trigger against an endpoint that behaves as it did for
    the first leaves the three elements exactly as the first one left
    them. *)
Theorem handleFetchUsers_idempotent server p :
  rendered (after (handleFetchUsers server) (after (handleFetchUsers server) p)) =
  rendered (after (handleFetchUsers server) p).
Proof.
  destruct (handleFetchUsers_paints server) as [v Hv].
  destruct (Hv p) as [_ ->].
  destruct (Hv (after (handleFetchUsers server) p)) as [_ ->].
  destruct (Hv p) as [_ ->].
  apply paint_paint.
Qed.

(** C8. [displayUsers] on a non-empty array hides and empties the banner,
    whatever the page showed before.  In particular the banner that
    [fetchUsers] puts up when the request fails is gone when the trigger
    ends. *)
Theorem displayUsers_clears_the_banner (us : list value) server error p :
  us ≠ [] →
  fetch_failure server error →
  (¬ visible (errorMessageElement (after (displayUsers (JArr us)) p)) ∧
   children (errorMessageElement (after (displayUsers (JArr us)) p)) = Text "") ∧
  (visible (errorMessageElement (after (fetchUsers server) p)) ∧
   ¬ visible (errorMessageElement (after (handleFetchUsers server) p)) ∧
   children (errorMessageElement (after (handleFetchUsers server) p)) = Text "").
Proof.
  intros Hne Hf. split.
  - assert (negb (truthy (JArr us)) || length_is_zero (JArr us) = false) as He.
    { simpl. by apply bool_decide_eq_false. }
    unfold after.
    destruct (usersHTML (JArr us)) as [e | html] eqn:Hh.
    + rewrite (displayUsers_throws _ _ _ He Hh). split; [| done].
      apply hidden_after_add.
    + rewrite (displayUsers_some _ _ _ He Hh). split; [| done].
      apply hidden_after_add.
  - unfold after.
    rewrite (fetchUsers_failure _ _ _ Hf), (handleFetchUsers_failure _ _ _ Hf).
    split_and!; try done.
    + apply visible_after_remove.
    + apply hidden_after_add.
Qed.

Lemma displayUsers_clears_the_banner_offline :
  let offline := Unreachable (TypeError "Failed to fetch") in
  (¬ visible (errorMessageElement (after (displayUsers (JArr [JNull])) blank_page)) ∧
   children (errorMessageElement (after (displayUsers (JArr [JNull])) blank_page)) =
     Text "") ∧
  (visible (errorMessageElement (after (fetchUsers offline) blank_page)) ∧
   ¬ visible (errorMessageElement (after (handleFetchUsers offline) blank_page)) ∧
   children (errorMessageElement (after (handleFetchUsers offline) blank_page)) = Text "").
Proof.
  apply (displayUsers_clears_the_banner
           [JNull] (Unreachable (TypeError "Failed to fetch"))
           (TypeError "Failed to fetch") blank_page).
  - discriminate.
  - constructor.
Defined.

(** C9. [displayError] and [displayUsers] both start with [hideLoading],
    and after either of them, as after a whole trigger, the loading
    indicator is hidden. *)
Theorem loading_indicator_hidden_with_output :
  (∀ text p,
     displayError text p =
       (on_errorMessage (set_textContent text) ;;
        on_errorMessage (classList_remove "hidden")) (after hideLoading p) ∧
     ¬ visible (loadingElement (after (displayError text) p))) ∧
  (∀ users p,
     displayUsers users p =
       (clearError ;;
        if negb (truthy users) || length_is_zero users then
          displayError "No users found."
        else
          html <- lift (usersHTML users) ;;
          on_usersContainer (set_innerHTML html)) (after hideLoading p) ∧
     ¬ visible (loadingElement (after (displayUsers users) p))) ∧
  (∀ server p,
     ¬ visible (loadingElement (after (handleFetchUsers server) p))).
Proof.
  split_and!.
  - intros text p. split; [reflexivity | apply hidden_after_add].
  - intros users p. split; [reflexivity |]. unfold after.
    destruct (displayUsers_cases users p) as [-> | [(html & _ & ->) | (e & ->)]];
      apply hidden_after_add.
  - intros server p. destruct (handleFetchUsers_paints server) as [v Hv].
    destruct (Hv p) as [_ Hr].
    change (loadingElement (after (handleFetchUsers server) p))
      with (rendered (after (handleFetchUsers server) p)).1.1.
    rewrite Hr, paint_loading. apply hidden_after_add.
Qed.

(** C10. For a user record, [createUserCard] returns the template with the
    record's name, email and city put in as they are: no character of
    them is escaped, dropped or added. *)
Theorem createUserCard_substitutes_raw u name email city :
  user_fields u = Some (name, email, city) →
  createUserCard u =
    ok (card_open +:+ name +:+ card_after_name +:+ email +:+ card_after_email +:+
        city +:+ card_close).
Proof. apply createUserCard_user. Qed.

Lemma createUserCard_keeps_markup :
  createUserCard
    (user_object 4 "<img src=x onerror=alert(1)>" "a&b@x.com" "Sao <b>Paulo</b>") =
    ok (card_open +:+ "<img src=x onerror=alert(1)>" +:+ card_after_name +:+
        "a&b@x.com" +:+ card_after_email +:+ "Sao <b>Paulo</b>" +:+ card_close).
Proof.
  apply (createUserCard_substitutes_raw
           (user_object 4 "<img src=x onerror=alert(1)>" "a&b@x.com" "Sao <b>Paulo</b>")).
  reflexivity.
Defined.

(** ** Further properties *)

Set Warnings "-clear-no-such-hyp".

(** *** Supporting facts *)

Lemma card_template_nonempty name email city : card_template name email city ≠ "".
Proof. discriminate. Qed.

Lemma createUserCard_nonempty u card : createUserCard u = ok card → card ≠ "".
Proof.
  unfold createUserCard, rbind, ok. intros Hcard.
  repeat case_match; simplify_eq. apply card_template_nonempty.
Qed.

Lemma concat_nonempty (first : string) (others : list string) :
  first ≠ "" → String.concat "" (first :: others) ≠ "".
Proof.
  destruct first as [| c first]; [done |]. intros _.
  destruct others; discriminate.
Qed.

(** Markup that [displayUsers] writes is never empty. *)
Lemma usersHTML_nonempty users html :
  negb (truthy users) || length_is_zero users = false →
  usersHTML users = ok html →
  html ≠ "".
Proof.
  intros He. destruct users as [| | | | us | props]; try done.
  destruct us as [| u us]; [done |].
  unfold usersHTML, array_map, rbind, ok. intros Hh.
  destruct (createUserCard u) as [e | card] eqn:Hcard; [done |].
  repeat case_match; simplify_eq.
  apply concat_nonempty. by eapply createUserCard_nonempty.
Qed.

Lemma array_map_first_failure {A} (f : value → result A) good bad rest error :
  Forall (λ u, ∃ y, f u = ok y) good →
  f bad = raise error →
  array_map (JArr (good ++ bad :: rest)) f = raise error.
Proof.
  intros Hgood Hbad. simpl.
  induction Hgood as [| u good [y Hy] _ IH]; simpl.
  - by rewrite Hbad.
  - rewrite Hy. simpl. by rewrite IH.
Qed.

(** The runs of the handler, one goal per run. *)
Ltac trigger_cases server p :=
  let error := fresh "error" in
  let Hf := fresh "Hf" in
  let r := fresh "r" in
  let data := fresh "data" in
  let Hr := fresh "Hr" in
  let Hd := fresh "Hd" in
  let He := fresh "He" in
  let Hh := fresh "Hh" in
  let html := fresh "html" in
  destruct (endpoint_cases server) as [[error Hf] | (r & data & -> & Hr & Hd)];
  [ rewrite (handleFetchUsers_failure _ _ p Hf)
  | destruct (negb (truthy data) || length_is_zero data) eqn:He;
    [ rewrite (handleFetchUsers_none _ _ p Hr Hd He)
    | destruct (usersHTML data) as [error | html] eqn:Hh;
      [ rewrite (handleFetchUsers_throws _ _ _ p Hr Hd He Hh)
      | rewrite (handleFetchUsers_some _ _ _ p Hr Hd He Hh) ] ] ].

(** *** [fetchUsers] *)

(** X1. On a 2xx response whose body parses, [fetchUsers] returns the
    parsed value as it is, whatever its shape, and leaves the page in the
    loading state: indicator visible, banner hidden, container empty,
    console untouched. *)
Theorem fetchUsers_returns_body_unchecked r data p :
  (200 ≤ status r ∧ status r ≤ 299)%N →
  payload r = Parsed data →
  let fetched := after (fetchUsers (Responds r)) p in
  fetchUsers (Responds r) p = (ok data, fetched) ∧
  visible (loadingElement fetched) ∧
  ¬ visible (errorMessageElement fetched) ∧
  children (usersContainer fetched) = Markup "" ∧
  console fetched = console p.
Proof.
  intros Hr Hd fetched. subst fetched. unfold after.
  rewrite (fetchUsers_success _ _ _ Hr Hd). split_and!; try done.
  - apply visible_after_remove.
  - apply hidden_after_add.
Qed.

Lemma fetchUsers_returns_a_number_unchecked :
  let r := {| status := 204; payload := Parsed (JNum (num_of_N 7)) |} in
  let fetched := after (fetchUsers (Responds r)) page_with_cards in
  fetchUsers (Responds r) page_with_cards = (ok (JNum (num_of_N 7)), fetched) ∧
  visible (loadingElement fetched) ∧
  ¬ visible (errorMessageElement fetched) ∧
  children (usersContainer fetched) = Markup "" ∧
  console fetched = console page_with_cards.
Proof.
  apply (fetchUsers_returns_body_unchecked
           {| status := 204; payload := Parsed (JNum (num_of_N 7)) |}
           (JNum (num_of_N 7)) page_with_cards).
  - simpl. lia.
  - reflexivity.
Defined.

(** X2. On any failure, [fetchUsers] leaves the banner visible with the
    caught error's message between "Failed to fetch users: " and
    ". Showing sample data.", the indicator hidden, the container empty,
    and one more console entry, which holds the caught error. *)
Theorem fetchUsers_reports_the_failure server error p :
  fetch_failure server error →
  let fetched := after (fetchUsers server) p in
  visible (errorMessageElement fetched) ∧
  children (errorMessageElement fetched) =
    Text ("Failed to fetch users: " +:+ message error +:+ ". Showing sample data.") ∧
  ¬ visible (loadingElement fetched) ∧
  children (usersContainer fetched) = Markup "" ∧
  console fetched = (console p ++ [("Error fetching users:", error)])%list.
Proof.
  intros Hf fetched. subst fetched. unfold after.
  rewrite (fetchUsers_failure _ _ _ Hf). split_and!; try done.
  - apply visible_after_remove.
  - apply hidden_after_add.
Qed.

Lemma fetchUsers_reports_being_offline :
  let fetched := after (fetchUsers (Unreachable (TypeError "Failed to fetch"))) page_with_cards in
  visible (errorMessageElement fetched) ∧
  children (errorMessageElement fetched) =
    Text ("Failed to fetch users: " +:+ message (TypeError "Failed to fetch") +:+
          ". Showing sample data.") ∧
  ¬ visible (loadingElement fetched) ∧
  children (usersContainer fetched) = Markup "" ∧
  console fetched =
    (console page_with_cards ++
       [("Error fetching users:", TypeError "Failed to fetch")])%list.
Proof.
  apply (fetchUsers_reports_the_failure
           (Unreachable (TypeError "Failed to fetch")) (TypeError "Failed to fetch")
           page_with_cards).
  constructor.
Defined.

(** *** Bodies of the wrong shape *)

(** X3. A 2xx body that parses to something other than an array, and that
    is neither falsy nor of length zero (an error object, say), makes
    [users.map] throw: the trigger ends with the generic banner, an empty
    container and the [TypeError] on the console. *)
Theorem non_array_body_is_an_unexpected_error r data p :
  (200 ≤ status r ∧ status r ≤ 299)%N →
  payload r = Parsed data →
  (∀ elements, data ≠ JArr elements) →
  truthy data = true →
  length_is_zero data = false →
  let final := after (handleFetchUsers (Responds r)) p in
  handleFetchUsers (Responds r) p = (ok tt, final) ∧
  visible (errorMessageElement final) ∧
  children (errorMessageElement final) =
    Text "An unexpected error occurred. Please try again." ∧
  children (usersContainer final) = Markup "" ∧
  console final =
    (console p ++ [("Unexpected error:", TypeError "users.map is not a function")])%list.
Proof.
  intros Hr Hd Hna Ht Hl final. subst final. unfold after.
  assert (negb (truthy data) || length_is_zero data = false) as He
    by by rewrite Ht, Hl.
  assert (usersHTML data = raise (TypeError "users.map is not a function")) as Hh.
  { destruct data; try done. by destruct (Hna elements). }
  rewrite (handleFetchUsers_throws _ _ _ _ Hr Hd He Hh). split_and!; try done.
  apply visible_after_remove.
Qed.

Lemma error_object_body_is_an_unexpected_error :
  let r := {| status := 200;
              payload := Parsed (JObj [("error", JStr "rate limited")]) |} in
  let final := after (handleFetchUsers (Responds r)) blank_page in
  handleFetchUsers (Responds r) blank_page = (ok tt, final) ∧
  visible (errorMessageElement final) ∧
  children (errorMessageElement final) =
    Text "An unexpected error occurred. Please try again." ∧
  children (usersContainer final) = Markup "" ∧
  console final =
    (console blank_page ++
       [("Unexpected error:", TypeError "users.map is not a function")])%list.
Proof.
  apply (non_array_body_is_an_unexpected_error
           {| status := 200; payload := Parsed (JObj [("error", JStr "rate limited")]) |}
           (JObj [("error", JStr "rate limited")]) blank_page).
  - simpl. lia.
  - reflexivity.
  - discriminate.
  - reflexivity.
  - reflexivity.
Defined.

(** X4. After a trigger on a 2xx response with a parsed body, the banner
    reads "No users found." exactly when the body is [null], [false], a
    zero number, the empty string, the empty array, or an object whose own
    [length] is a zero number. *)
Theorem no_users_found_exactly_when r data p :
  (200 ≤ status r ∧ status r ≤ 299)%N →
  payload r = Parsed data →
  children (errorMessageElement (after (handleFetchUsers (Responds r)) p)) =
    Text "No users found."
  ↔ (data = JNull ∨ data = JBool false ∨ data = JStr "" ∨ data = JArr [] ∨
     (∃ n, data = JNum n ∧ num_is_zero n = true) ∨
     (∃ props n, data = JObj props ∧
                 own_property props "length" = Some (JNum n) ∧ num_is_zero n = true)).
Proof.
  intros Hr Hd.
  assert (negb (truthy data) || length_is_zero data = true ↔
          (data = JNull ∨ data = JBool false ∨ data = JStr "" ∨ data = JArr [] ∨
           (∃ n, data = JNum n ∧ num_is_zero n = true) ∨
           (∃ props n, data = JObj props ∧
                       own_property props "length" = Some (JNum n) ∧
                       num_is_zero n = true))) as Hshape.
  { destruct data as [| [] | n | s | us | props]; simpl.
    - naive_solver.
    - naive_solver.
    - naive_solver.
    - destruct (num_is_zero n) eqn:Hn; naive_solver.
    - destruct (String.eqb_spec s ""); naive_solver.
    - destruct us; naive_solver.
    - destruct (own_property props "length") as [v |] eqn:Hlen.
      + destruct v; naive_solver.
      + naive_solver. }
  rewrite <- Hshape. unfold after.
  destruct (negb (truthy data) || length_is_zero data) eqn:He.
  - by rewrite (handleFetchUsers_none _ _ _ Hr Hd He).
  - destruct (usersHTML data) as [error | html] eqn:Hh.
    + by rewrite (handleFetchUsers_throws _ _ _ _ Hr Hd He Hh).
    + by rewrite (handleFetchUsers_some _ _ _ _ Hr Hd He Hh).
Qed.

Lemma no_users_found_for_zero_length_object :
  children (errorMessageElement
              (after (handleFetchUsers
                        (Responds {| status := 200;
                                     payload := Parsed (JObj [("length", JNum (num_of_N 0))]) |}))
                     blank_page)) =
    Text "No users found.".
Proof.
  apply (no_users_found_exactly_when
           {| status := 200; payload := Parsed (JObj [("length", JNum (num_of_N 0))]) |}
           (JObj [("length", JNum (num_of_N 0))]) blank_page).
  - simpl. lia.
  - reflexivity.
  - do 5 right. by exists [("length", JNum (num_of_N 0))], (num_of_N 0).
Defined.

(** X5. The first element on which [createUserCard] throws ends the
    rendering with that error: no card is written, not even for the
    elements before it, and the trigger ends with the generic banner and
    the error on the console. *)
Theorem first_bad_user_blocks_every_card r good bad rest error p :
  (200 ≤ status r ∧ status r ≤ 299)%N →
  payload r = Parsed (JArr (good ++ bad :: rest)) →
  Forall (λ u, ∃ card, createUserCard u = ok card) good →
  createUserCard bad = raise error →
  let final := after (handleFetchUsers (Responds r)) p in
  handleFetchUsers (Responds r) p = (ok tt, final) ∧
  children (usersContainer final) = Markup "" ∧
  visible (errorMessageElement final) ∧
  children (errorMessageElement final) =
    Text "An unexpected error occurred. Please try again." ∧
  console final = (console p ++ [("Unexpected error:", error)])%list.
Proof.
  intros Hr Hd Hgood Hbad final. subst final. unfold after.
  assert (negb (truthy (JArr (good ++ bad :: rest))) ||
          length_is_zero (JArr (good ++ bad :: rest)) = false) as He.
  { simpl. apply bool_decide_eq_false. by destruct good. }
  assert (usersHTML (JArr (good ++ bad :: rest)) = raise error) as Hh.
  { unfold usersHTML. by rewrite (array_map_first_failure _ _ _ _ _ Hgood Hbad). }
  rewrite (handleFetchUsers_throws _ _ _ _ Hr Hd He Hh). split_and!; try done.
  apply visible_after_remove.
Qed.

Lemma null_after_a_good_user_blocks_every_card :
  let r := {| status := 200;
              payload := Parsed (JArr ([user_object 1 "A" "a@x.com" "C"] ++
                                       JNull :: [user_object 2 "B" "b@x.com" "D"])) |} in
  let final := after (handleFetchUsers (Responds r)) blank_page in
  handleFetchUsers (Responds r) blank_page = (ok tt, final) ∧
  children (usersContainer final) = Markup "" ∧
  visible (errorMessageElement final) ∧
  children (errorMessageElement final) =
    Text "An unexpected error occurred. Please try again." ∧
  console final =
    (console blank_page ++
       [("Unexpected error:",
         TypeError "Cannot read properties of null (reading 'name')")])%list.
Proof.
  apply (first_bad_user_blocks_every_card
           {| status := 200;
              payload := Parsed (JArr ([user_object 1 "A" "a@x.com" "C"] ++
                                       JNull :: [user_object 2 "B" "b@x.com" "D"])) |}
           [user_object 1 "A" "a@x.com" "C"] JNull [user_object 2 "B" "b@x.com" "D"]
           (TypeError "Cannot read properties of null (reading 'name')") blank_page).
  - simpl. lia.
  - reflexivity.
  - repeat constructor. by eexists.
  - reflexivity.
Defined.

(** *** [createUserCard] on incomplete records *)

(** X6. [createUserCard] throws on every value that is not an object with
    an own, non-null [address]: [null], a string, a number, an array, an
    object without the property or with [address: null]. *)
Theorem createUserCard_needs_an_address u :
  has_address u = false →
  ∃ error, createUserCard u = raise error.
Proof.
  intros Ha. unfold createUserCard.
  destruct u as [| b | n | s | us | props].
  - by eexists.
  - by eexists.
  - by eexists.
  - by eexists.
  - by eexists.
  - unfold get_field at 1 2 3; simpl. simpl in Ha.
    destruct (substitute (own_property props "name")) as [e | name]; [by eexists |].
    destruct (substitute (own_property props "email")) as [e | email]; [by eexists |].
    simpl. destruct (own_property props "address") as [[] |]; try done; by eexists.
Qed.

Lemma createUserCard_throws_without_address :
  ∃ error,
    createUserCard (JObj [("id", JNum (num_of_N 5)); ("name", JStr "Ann");
                          ("email", JStr "ann@x.com")]) = raise error.
Proof.
  apply (createUserCard_needs_an_address
           (JObj [("id", JNum (num_of_N 5)); ("name", JStr "Ann");
                  ("email", JStr "ann@x.com")])).
  reflexivity.
Defined.

(** X7. A missing [name], [email] or [city] does not throw: the card
    shows the text "undefined" in its place. *)
Theorem createUserCard_renders_missing_fields_as_undefined props address_props :
  own_property props "name" = None →
  own_property props "email" = None →
  own_property props "address" = Some (JObj address_props) →
  own_property address_props "city" = None →
  createUserCard (JObj props) = ok (card_template "undefined" "undefined" "undefined").
Proof.
  intros Hn He Ha Hc. unfold createUserCard, get_field; simpl.
  rewrite Hn, He, Ha; simpl. by rewrite Hc.
Qed.

Lemma createUserCard_of_empty_address_record :
  createUserCard (JObj [("id", JNum (num_of_N 5)); ("address", JObj [])]) =
    ok (card_template "undefined" "undefined" "undefined").
Proof.
  apply (createUserCard_renders_missing_fields_as_undefined
           [("id", JNum (num_of_N 5)); ("address", JObj [])] []);
    reflexivity.
Defined.

(** *** What a trigger leaves behind *)

Lemma handleFetchUsers_try_none r data p :
  (200 ≤ status r ∧ status r ≤ 299)%N →
  payload r = Parsed data →
  negb (truthy data) || length_is_zero data = true →
  ∃ q, handleFetchUsers_try (Responds r) p = (ok tt, q).
Proof.
  intros Hr Hd He. eexists. unfold handleFetchUsers_try.
  erewrite mbind_ok by by apply fetchUsers_success.
  by apply displayUsers_none.
Qed.

Lemma handleFetchUsers_try_some r data html p :
  (200 ≤ status r ∧ status r ≤ 299)%N →
  payload r = Parsed data →
  negb (truthy data) || length_is_zero data = false →
  usersHTML data = ok html →
  ∃ q, handleFetchUsers_try (Responds r) p = (ok tt, q).
Proof.
  intros Hr Hd He Hh. eexists. unfold handleFetchUsers_try.
  erewrite mbind_ok by by apply fetchUsers_success.
  by apply displayUsers_some.
Qed.

Lemma parsed_body_is_no_failure r data error :
  (200 ≤ status r ∧ status r ≤ 299)%N →
  payload r = Parsed data →
  ¬ fetch_failure (Responds r) error.
Proof. intros Hr Hd Hf. inversion Hf; simplify_eq; [done | congruence]. Qed.

Lemma array_map_records (us : list value) (fields : list (string * string * string)) :
  Forall2 (λ u f, user_fields u = Some f) us fields →
  array_map (JArr us) createUserCard =
    ok (map (λ f, card_template f.1.1 f.1.2 f.2) fields).
Proof.
  induction 1 as [| u [[name email] city] us fields Hu _ IH]; [done |].
  simpl in *. rewrite (createUserCard_user _ _ _ _ Hu). simpl. by rewrite IH.
Qed.

(** X8. When the request succeeds with a non-empty array of user records,
    the trigger ends with the cards of the records, in order, in the
    container, the banner hidden and empty, the indicator hidden, and
    nothing written to the console. *)
Theorem trigger_renders_the_fetched_users r us fields p :
  (200 ≤ status r ∧ status r ≤ 299)%N →
  payload r = Parsed (JArr us) →
  us ≠ [] →
  Forall2 (λ u f, user_fields u = Some f) us fields →
  let final := after (handleFetchUsers (Responds r)) p in
  handleFetchUsers (Responds r) p = (ok tt, final) ∧
  children (usersContainer final) =
    Markup (String.concat "" (map (λ f, card_template f.1.1 f.1.2 f.2) fields)) ∧
  ¬ visible (errorMessageElement final) ∧
  children (errorMessageElement final) = Text "" ∧
  ¬ visible (loadingElement final) ∧
  console final = console p.
Proof.
  intros Hr Hd Hne Hus final. subst final. unfold after.
  assert (negb (truthy (JArr us)) || length_is_zero (JArr us) = false) as He.
  { simpl. by apply bool_decide_eq_false. }
  assert (usersHTML (JArr us) =
            ok (String.concat "" (map (λ f, card_template f.1.1 f.1.2 f.2) fields))) as Hh.
  { unfold usersHTML. by rewrite (array_map_records _ _ Hus). }
  rewrite (handleFetchUsers_some _ _ _ _ Hr Hd He Hh). split_and!; try done.
  all: apply hidden_after_add.
Qed.

Lemma trigger_renders_two_fetched_users :
  let r := {| status := 200;
              payload := Parsed (JArr [user_object 1 "A" "a@x.com" "C";
                                       user_object 2 "B" "b@x.com" "D"]) |} in
  let final := after (handleFetchUsers (Responds r)) blank_page in
  handleFetchUsers (Responds r) blank_page = (ok tt, final) ∧
  children (usersContainer final) =
    Markup (String.concat ""
              (map (λ f, card_template f.1.1 f.1.2 f.2)
                   [("A", "a@x.com", "C"); ("B", "b@x.com", "D")])) ∧
  ¬ visible (errorMessageElement final) ∧
  children (errorMessageElement final) = Text "" ∧
  ¬ visible (loadingElement final) ∧
  console final = console blank_page.
Proof.
  apply (trigger_renders_the_fetched_users
           {| status := 200;
              payload := Parsed (JArr [user_object 1 "A" "a@x.com" "C";
                                       user_object 2 "B" "b@x.com" "D"]) |}
           [user_object 1 "A" "a@x.com" "C"; user_object 2 "B" "b@x.com" "D"]
           [("A", "a@x.com", "C"); ("B", "b@x.com", "D")] blank_page).
  - simpl. lia.
  - reflexivity.
  - discriminate.
  - repeat constructor.
Defined.

(** X9. After every trigger the page shows either a banner or cards,
    never both and never neither: the banner is visible exactly when the
    container is empty, and exactly when its text is not empty. *)
Theorem banner_exactly_when_no_cards server p :
  let final := after (handleFetchUsers server) p in
  (visible (errorMessageElement final) ↔ children (usersContainer final) = Markup "") ∧
  (visible (errorMessageElement final) ↔ children (errorMessageElement final) ≠ Text "").
Proof.
  intros final. subst final. unfold after.
  trigger_cases server p; simpl.
  - split; (split; [intros Hv; by destruct (hidden_after_add _ Hv) | done]).
  - split; (split; [done | intros _; apply visible_after_remove]).
  - split; (split; [done | intros _; apply visible_after_remove]).
  - pose proof (usersHTML_nonempty _ _ He Hh) as Hne.
    split; (split; [intros Hv; by destruct (hidden_after_add _ Hv) |]).
    + intros [= ?]. done.
    + done.
Qed.

(** X10. A trigger changes nothing but the class [hidden], the banner's
    text and the container's markup: every other class of the indicator
    and of the banner stays or stays away, the container keeps its
    classes, and the indicator keeps its content. *)
Theorem trigger_touches_only_the_hidden_class server p token :
  token ≠ "hidden" →
  let final := after (handleFetchUsers server) p in
  (token ∈ classList (loadingElement final) ↔ token ∈ classList (loadingElement p)) ∧
  (token ∈ classList (errorMessageElement final) ↔
   token ∈ classList (errorMessageElement p)) ∧
  classList (usersContainer final) = classList (usersContainer p) ∧
  children (loadingElement final) = children (loadingElement p).
Proof.
  intros Htoken final. subst final.
  destruct (handleFetchUsers_paints server) as [v Hv].
  destruct (Hv p) as [_ Hr]. unfold rendered in Hr.
  destruct v; simpl in Hr; injection Hr as -> -> ->.
  all: unfold classList_add, classList_remove; simpl.
  all: split_and!; try done; set_solver.
Qed.

Lemma trigger_keeps_the_error_message_class :
  let final := after (handleFetchUsers (Unreachable (TypeError "Failed to fetch"))) blank_page in
  ("error-message" ∈ classList (loadingElement final) ↔
   "error-message" ∈ classList (loadingElement blank_page)) ∧
  ("error-message" ∈ classList (errorMessageElement final) ↔
   "error-message" ∈ classList (errorMessageElement blank_page)) ∧
  classList (usersContainer final) = classList (usersContainer blank_page) ∧
  children (loadingElement final) = children (loadingElement blank_page).
Proof.
  apply (trigger_touches_only_the_hidden_class
           (Unreachable (TypeError "Failed to fetch")) blank_page "error-message").
  discriminate.
Defined.

(** X11. A trigger only appends to the console, and at most one entry: the
    error of a failed request under "Error fetching users:", or the error
    thrown while rendering under "Unexpected error:".  It logs nothing
    exactly when the request succeeds and rendering returns. *)
Theorem trigger_logs_at_most_one_error server p :
  ∃ log,
    console (after (handleFetchUsers server) p) = (console p ++ log)%list ∧
    (List.length log ≤ 1)%nat ∧
    (∀ label error,
       (label, error) ∈ log →
       (label = "Error fetching users:" ∧ fetch_failure server error) ∨
       (label = "Unexpected error:" ∧
        ∃ thrown, handleFetchUsers_try server p = (raise error, thrown))) ∧
    (log = [] ↔
     (∀ error, ¬ fetch_failure server error) ∧
     ∃ q, handleFetchUsers_try server p = (ok tt, q)).
Proof.
  unfold after. trigger_cases server p; simpl.
  - exists [("Error fetching users:", error)]. split_and!; [done | simpl; lia | |].
    + intros label e [= -> ->]%list_elem_of_singleton. by left.
    + split; [done |]. intros [Hnone _]. by destruct (Hnone error).
  - exists []. split_and!; [by rewrite app_nil_r | simpl; lia | |].
    + by intros label e ?%elem_of_nil.
    + split; [| done]. intros _. split.
      * intros e. by apply parsed_body_is_no_failure with data.
      * by apply handleFetchUsers_try_none with data.
  - exists [("Unexpected error:", error)]. split_and!; [done | simpl; lia | |].
    + intros label e [= -> ->]%list_elem_of_singleton. right. split; [done |].
      eexists. by apply handleFetchUsers_try_throws with data.
    + split; [done |]. intros [_ [q Hq]].
      by rewrite (handleFetchUsers_try_throws _ _ _ _ Hr Hd He Hh) in Hq.
  - exists []. split_and!; [by rewrite app_nil_r | simpl; lia | |].
    + by intros label e ?%elem_of_nil.
    + split; [| done]. intros _. split.
      * intros e. by apply parsed_body_is_no_failure with data.
      * by apply handleFetchUsers_try_some with data html.
Qed.

(** *** Several clicks *)

Lemma paint_over v w r : paint w (paint v r) = paint w r.
Proof.
  destruct r as [[loading banner] container], v, w; simpl;
    triple_eq; same_element.
Qed.

Lemma clicks_painted_over servers :
  ∀ p v, paint v (rendered (clicks servers p)) = paint v (rendered p).
Proof.
  induction servers as [| server servers IH]; intros p v; [done |].
  change (clicks (server :: servers) p)
    with (clicks servers (after (handleFetchUsers server) p)).
  rewrite IH. destruct (handleFetchUsers_paints server) as [w Hw].
  destruct (Hw p) as [_ ->]. apply paint_over.
Qed.

(** X12. After any number of clicks, each run finishing before the next
    click, the three elements are as the last click alone would leave
    them: nothing of an earlier run's banner or cards stays on the page. *)
Theorem last_click_decides_the_page servers server p :
  rendered (clicks (servers ++ [server]) p) =
  rendered (after (handleFetchUsers server) p).
Proof.
  unfold clicks. rewrite foldl_app. simpl. fold (clicks servers p).
  destruct (handleFetchUsers_paints server) as [v Hv].
  destruct (Hv (clicks servers p)) as [_ ->].
  destruct (Hv p) as [_ ->].
  apply clicks_painted_over.
Qed.

(** *** The display functions on their own *)



(** X14. [displayError] replaces the banner's text instead of adding to
    it: after two calls the three elements are as after the second call
    alone. *)
Theorem displayError_shows_the_last_message first second p :
  rendered (after (displayError second) (after (displayError first) p)) =
  rendered (after (displayError second) p).
Proof. unfold rendered, after; simpl. triple_eq; same_element. Qed.

Lemma trigger_logs_the_rendering_error_once :
  ∃ log,
    console (after (handleFetchUsers
                      (Responds {| status := 200; payload := Parsed (JArr [JNull]) |}))
                   blank_page) =
      (console blank_page ++ log)%list ∧
    (List.length log ≤ 1)%nat ∧
    (∀ label error,
       (label, error) ∈ log →
       (label = "Error fetching users:" ∧
        fetch_failure (Responds {| status := 200; payload := Parsed (JArr [JNull]) |}) error) ∨
       (label = "Unexpected error:" ∧
        ∃ thrown,
          handleFetchUsers_try
            (Responds {| status := 200; payload := Parsed (JArr [JNull]) |}) blank_page =
            (raise error, thrown))) ∧
    (log = [] ↔
     (∀ error,
        ¬ fetch_failure (Responds {| status := 200; payload := Parsed (JArr [JNull]) |}) error) ∧
     ∃ q, handleFetchUsers_try
            (Responds {| status := 200; payload := Parsed (JArr [JNull]) |}) blank_page =
            (ok tt, q)).
Proof.
  exact (trigger_logs_at_most_one_error
           (Responds {| status := 200; payload := Parsed (JArr [JNull]) |}) blank_page).
Defined.
